(** * MLX Quantize & Convert GUI: command builder and conversion runner

    A shallow embedding of the conversion logic of [mlx_quantize_gui_v2.py]
    (class [MLXQuantizeApp]): source classification, output-path derivation,
    command construction, the [_run_conversion] entry point and the worker
    it starts in a background thread.

    Python [str] values are modelled as [string]; the filesystem as a finite
    map from path strings to the kind of node found there; calls with an
    effect (the log widget, message boxes, widget configuration, directory
    creation, process creation, thread start) as events of a trace.  A
    worker thread runs to its end in one step of the application; the
    lines its process writes and the way the process ends are inputs of
    that step. *)

From Stdlib Require Import Ascii.
From stdpp Require Import base strings pretty gmap list.

Local Open Scope string_scope.
Local Open Scope list_scope.

(** ** Python string built-ins *)

Module PyStr.

(** [str.isspace] on the ASCII range: TAB..CR, FS..US and the space. *)
Definition isspace (c : ascii) : bool :=
  let n := nat_of_ascii c in
  (((9 <=? n) && (n <=? 13)) || ((28 <=? n) && (n <=? 32)))%nat.

(** [s.lstrip()] *)
Fixpoint lstrip (s : string) : string :=
  match s with
  | EmptyString => EmptyString
  | String c s' => if isspace c then lstrip s' else s
  end.

(** [s.rstrip()] *)
Fixpoint rstrip (s : string) : string :=
  match s with
  | EmptyString => EmptyString
  | String c s' =>
      match rstrip s' with
      | EmptyString => if isspace c then EmptyString else String c EmptyString
      | r => String c r
      end
  end.

(** [s.strip()] *)
Definition strip (s : string) : string := lstrip (rstrip s).

(** [not s] *)
Definition is_empty (s : string) : bool :=
  match s with EmptyString => true | String _ _ => false end.

(** [s.endswith(suffix)] *)
Fixpoint endswith (s suffix : string) : bool :=
  if String.eqb s suffix then true
  else match s with
       | EmptyString => false
       | String _ s' => endswith s' suffix
       end.

(** [c in s] for a one-character string [c] *)
Fixpoint contains (c : ascii) (s : string) : bool :=
  match s with
  | EmptyString => false
  | String d s' => Ascii.eqb c d || contains c s'
  end.

(** [s.replace(a, b)] for one-character strings [a] and [b] *)
Fixpoint replace (a b : ascii) (s : string) : string :=
  match s with
  | EmptyString => EmptyString
  | String c s' => String (if Ascii.eqb c a then b else c) (replace a b s')
  end.

(** [s * n] *)
Fixpoint mul (s : string) (n : nat) : string :=
  match n with
  | O => EmptyString
  | S n' => s +:+ mul s n'
  end.

(** [sep.join(l)] *)
Definition join (sep : string) (l : list string) : string :=
  String.concat sep l.

End PyStr.

(** ** Data *)

(** The three results of [_detect_source_type]: ["hf"], ["local"], ["file"]. *)
Inductive source_type := hf | local | file.

Definition source_type_eqb (a b : source_type) : bool :=
  match a, b with
  | hf, hf | local, local | file, file => true
  | _, _ => false
  end.

(** [source_type.upper()] *)
Definition upper (t : source_type) : string :=
  match t with hf => "HF" | local => "LOCAL" | file => "FILE" end.

(** What [os.path.exists] and [os.path.isdir] can see at a path. *)
Inductive node := Directory | RegularFile.

Abbreviation filesystem := (gmap string node).

Definition os_path_exists (fs : filesystem) (path : string) : bool :=
  match fs !! path with Some _ => true | None => false end.

Definition os_path_isdir (fs : filesystem) (path : string) : bool :=
  match fs !! path with Some Directory => true | _ => false end.

(** The Tk variables read by the conversion logic ([_init_variables]). *)
Record Vars := {
  source_path : string;
  output_base : string;
  auto_timestamp : bool;
  enable_quant : bool;
  q_bits : string;
  q_group : string;
  dtype : string;
  trust_remote : bool;
  hf_offline : bool;
  dry_run : bool
}.

(** Functions of the Python runtime and standard library that the program
    calls and that are not part of it. *)
Class Runtime := {
  DEFAULT_OUTPUT_BASE : string;                 (* str(Path.home() / "MLX_Models") *)
  sys_executable : string;                      (* sys.executable *)
  shlex_quote : string -> string;               (* shlex.quote *)
  os_path_join : string -> string -> string;    (* os.path.join *)
  Path_name : string -> string;                 (* Path(p).name *)
  Path_stem : string -> string;                 (* Path(p).stem *)
  Path_parent : string -> string                (* str(Path(p).parent) *)
}.

(** [tkinter] widget states used by the program. *)
Inductive widget_state := NORMAL | DISABLED.

Abbreviation thread_id := nat (only parsing).
Abbreviation environ := (gmap string string).

(** Effects, in the order the program performs them. *)
Inductive event :=
  | ShowWarning (title message : string)    (* messagebox.showwarning *)
  | ShowInfo (title message : string)       (* messagebox.showinfo *)
  | ShowError (title message : string)      (* messagebox.showerror *)
  | Log (level message : string)            (* self._log(message, level) *)
  | Makedirs (path : string)                (* os.makedirs(path, exist_ok=True) *)
  | ConvertBtn (s : widget_state)           (* self.convert_btn.configure(state=s) *)
  | StopBtn (s : widget_state)              (* self.stop_btn.configure(state=s) *)
  | ProgressStart (interval : nat)          (* self.progress.start(interval) *)
  | ProgressStop                            (* self.progress.stop() *)
  | ThreadStart (t : thread_id)             (* threading.Thread(target=worker).start() *)
  | Popen (cmd : list string) (env : environ) (* subprocess.Popen(cmd, ..., env=env) *)
  | SetProcess (p : option nat)             (* self.current_process = p *)
  | Wait.                                   (* self.current_process.wait() *)

(** The variables a [worker] closure captures from [_run_conversion]. *)
Record Job := {
  job_cmd : list string;
  job_env : environ;
  job_output_path : string
}.

(** The mutable fields of the application object, with the worker threads
    that have been started and have not finished yet. *)
Record App := {
  vars : Vars;
  current_process : option nat;
  worker_thread : option thread_id;
  threads : gmap thread_id Job;
  next_thread : thread_id
}.

(** What a call of [_run_conversion] or [_preview_command] observes. *)
Record Env := {
  fs : filesystem;                 (* the filesystem *)
  now : string;                    (* datetime.now().strftime("%Y%m%d_%H%M%S") *)
  environ_ : environ;              (* os.environ *)
  makedirs_error : option string   (* the exception os.makedirs raises, if any *)
}.

(** What a worker meets when it runs its command. *)
Inductive outcome :=
  | PopenRaises (e : string)
      (* subprocess.Popen raised an exception whose text is [e] *)
  | ReadRaises (pid : nat) (lines : list string) (e : string)
      (* the process started, [lines] were read, then reading raised [e] *)
  | Exits (pid : nat) (lines : list string) (return_code : Z).
      (* the process started, wrote [lines] and exited with [return_code] *)

(** ** The program *)

Section Program.
Context `{Runtime}.

(** [_init_variables] *)
Definition _init_variables : Vars :=
  {| source_path := EmptyString;
     output_base := DEFAULT_OUTPUT_BASE;
     auto_timestamp := true;
     enable_quant := true;
     q_bits := "4";
     q_group := "64";
     dtype := "float16";
     trust_remote := true;
     hf_offline := false;
     dry_run := false |}.

(** [__init__]: no process, no worker thread. *)
Definition init : App :=
  {| vars := _init_variables;
     current_process := None;
     worker_thread := None;
     threads := ∅;
     next_thread := 0 |}.

(** [self._log(message)] with the default level. *)
Definition log (message : string) : event := Log "INFO" message.

(** ["=" * 80] *)
Definition rule : string := Eval cbv in PyStr.mul "=" 80.

(** [_detect_source_type] *)
Definition _detect_source_type (fs : filesystem) (path : string) : source_type :=
  let path := PyStr.strip path in
  if PyStr.contains "/" path && negb (os_path_exists fs path) then hf
  else if os_path_exists fs path then
    if os_path_isdir fs path then local
    else if PyStr.endswith path ".safetensors" || PyStr.endswith path ".nemo"
         then file
         else hf
  else hf.

(** The [while os.path.exists(output_path)] loop of [_generate_output_path].
    [budget] bounds the number of further iterations; [None] means that
    the budget ran out before a free path was found. *)
Fixpoint ensure_unique (fs : filesystem) (original_path : string)
    (budget counter : nat) (output_path : string) : option string :=
  if os_path_exists fs output_path then
    match budget with
    | O => None
    | S budget' =>
        ensure_unique fs original_path budget' (S counter)
          (original_path +:+ "_v" +:+ pretty counter)
    end
  else Some output_path.

(** The model name extracted by [_generate_output_path], the timestamp
    it may add, and the first path it tries. *)
Definition base_name (source_path : string) (source_type : source_type)
    : string :=
  match source_type with
  | hf => PyStr.replace "/" "_" source_path
  | file => Path_stem source_path
  | local => Path_name source_path
  end.

Definition model_name (v : Vars) (now : string)
    (source_path : string) (source_type : source_type) : string :=
  let model_name := base_name source_path source_type in
  if auto_timestamp v then model_name +:+ "_" +:+ now else model_name.

Definition original_path (v : Vars) (now : string)
    (source_path : string) (source_type : source_type) : string :=
  os_path_join (output_base v) (model_name v now source_path source_type).

(** [_generate_output_path].  A filesystem with [n] existing paths leaves
    one of the [n + 1] candidates free, so [n] iterations are enough
    (lemma [ensure_unique_finds]); the default is never used. *)
Definition _generate_output_path (fs : filesystem) (v : Vars) (now : string)
    (source_path : string) (source_type : source_type) : string :=
  let original_path := original_path v now source_path source_type in
  default original_path
    (ensure_unique fs original_path (size fs) 1 original_path).

(** [_build_command] *)
Definition _build_command (v : Vars)
    (source_path output_path : string) (source_type : source_type)
    : list string :=
  let cmd := [sys_executable; "-m"; "mlx_lm"; "convert"] in
  let source_path :=
    if source_type_eqb source_type file
       && PyStr.endswith source_path ".safetensors"
    then Path_parent source_path
    else source_path in
  let cmd := cmd ++ ["--hf-path"; source_path] in
  let cmd := cmd ++ ["--mlx-path"; output_path] in
  let cmd := cmd ++ ["--dtype"; dtype v] in
  let cmd :=
    if enable_quant v
    then ((cmd ++ ["-q"]) ++ ["--q-bits"; q_bits v]) ++ ["--q-group-size"; q_group v]
    else cmd in
  let cmd :=
    if trust_remote v then cmd ++ ["--trust-remote-code"] else cmd in
  cmd.

(** [" ".join(shlex.quote(arg) for arg in cmd)] *)
Definition command_text (cmd : list string) : string :=
  PyStr.join " " (map shlex_quote cmd).

(** The log entries of the [.nemo] branch of [_preview_command]. *)
Definition nemo_instructions : list event :=
  [ log rule;
    log "NeMo files require separate conversion to HuggingFace format first.";
    log "Install nemo2hf: pip install nemo2hf";
    log "Then run: python -m nemo2hf --in input.nemo --out temp_dir";
    log "Finally, use this tool on the temp_dir";
    log rule ].

(** [_preview_command] *)
Definition _preview_command (env : Env) (app : App) : list event :=
  let v := vars app in
  let source := PyStr.strip (source_path v) in
  if PyStr.is_empty source then
    [ShowWarning "No Source" "Please specify a model source."]
  else
    let source_type := _detect_source_type (fs env) source in
    let output_path :=
      _generate_output_path (fs env) v (now env) source source_type in
    if PyStr.endswith source ".nemo" then nemo_instructions
    else
      let cmd := _build_command v source output_path source_type in
      [ log rule;
        log "COMMAND PREVIEW";
        log ("Source Type: " +:+ upper source_type);
        log ("Output Path: " +:+ output_path);
        log "Command:";
        log ("  " +:+ command_text cmd);
        log rule ].

Definition newline : string := String "010"%char EmptyString.

(** The thread object made by [threading.Thread(target=worker)]. *)
Definition start_worker (job : Job) (app : App) : App :=
  let t := next_thread app in
  {| vars := vars app;
     current_process := current_process app;
     worker_thread := Some t;
     threads := <[t := job]> (threads app);
     next_thread := S t |}.

(** [self.worker_thread and self.worker_thread.is_alive()] *)
Definition worker_alive (app : App) : bool :=
  match worker_thread app with
  | Some t => bool_decide (is_Some (threads app !! t))
  | None => false
  end.

(** [_run_conversion]: the effects of the call itself, and the
    application state when it returns. *)
Definition _run_conversion (env : Env) (app : App) : list event * App :=
  let v := vars app in
  if worker_alive app then
    ([ShowWarning "Already Running" "A conversion is already in progress."],
     app)
  else
    let source := PyStr.strip (source_path v) in
    if PyStr.is_empty source then
      ([ShowWarning "No Source" "Please specify a model source."], app)
    else if PyStr.endswith source ".nemo" then
      (ShowInfo "NeMo Files"
         ("NeMo files must be converted to HuggingFace format first."
          +:+ newline +:+ "See the log for instructions.")
       :: _preview_command env app,
       app)
    else
      let source_type := _detect_source_type (fs env) source in
      let output_path :=
        _generate_output_path (fs env) v (now env) source source_type in
      let base_dir := output_base v in
      match makedirs_error env with
      | Some e =>
          ([ Makedirs base_dir;
             ShowError "Base Directory Error"
               ("Could not create base directory: " +:+ e) ],
           app)
      | None =>
          let cmd := _build_command v source output_path source_type in
          let started :=
            [ Makedirs base_dir;
              log rule;
              log ("Starting conversion: " +:+ source +:+ " -> " +:+ output_path);
              log ("Command: " +:+ command_text cmd) ] in
          if dry_run v then
            (started ++ [log "DRY RUN - Not executing command"; log rule],
             app)
          else
            let env' :=
              if hf_offline v
              then <["HF_HUB_OFFLINE" := "1"]> (environ_ env)
              else environ_ env in
            let job :=
              {| job_cmd := cmd; job_env := env';
                 job_output_path := output_path |} in
            (started ++
             [ ConvertBtn DISABLED; StopBtn NORMAL; ProgressStart 10;
               ThreadStart (next_thread app) ],
             start_worker job app)
      end.

(** [for line in self.current_process.stdout: self._log(line.rstrip())] *)
Definition stream_output (lines : list string) : list event :=
  map (fun line => log (PyStr.rstrip line)) lines.

(** The [if return_code == 0 ... else ...] report of [worker]. *)
Definition report (job : Job) (return_code : Z) : list event :=
  if (return_code =? 0)%Z then
    [ Log "SUCCESS" "SUCCESS: Conversion completed!";
      log ("Output saved to: " +:+ job_output_path job) ]
  else
    [ Log "ERROR"
        ("ERROR: Conversion failed (exit code " +:+ pretty return_code +:+ ")") ].

(** The [except Exception as e] handler of [worker]. *)
Definition handler (e : string) : list event :=
  [Log "ERROR" ("ERROR: " +:+ e)].

(** The [finally] block of [worker]. *)
Definition finally_ : list event :=
  [ ProgressStop; ConvertBtn NORMAL; StopBtn DISABLED; SetProcess None;
    log rule ].

(** The [try] block of [worker], up to the point where it ends or raises. *)
Definition attempt (job : Job) (o : outcome) : list event :=
  Popen (job_cmd job) (job_env job) ::
  match o with
  | PopenRaises e => handler e
  | ReadRaises pid lines e =>
      SetProcess (Some pid) :: stream_output lines ++ handler e
  | Exits pid lines return_code =>
      SetProcess (Some pid) :: stream_output lines
      ++ Wait :: report job return_code
  end.

(** [worker], the body of the background thread. *)
Definition worker (job : Job) (o : outcome) : list event :=
  attempt job o ++ finally_.

(** The application state once thread [t] has run [worker] to its end. *)
Definition worker_done (t : thread_id) (app : App) : App :=
  {| vars := vars app;
     current_process := None;
     worker_thread := worker_thread app;
     threads := delete t (threads app);
     next_thread := next_thread app |}.

(** The user edits the form. *)
Definition set_vars (v : Vars) (app : App) : App :=
  {| vars := v;
     current_process := current_process app;
     worker_thread := worker_thread app;
     threads := threads app;
     next_thread := next_thread app |}.

(** One step of the application: a form edit, a press of Preview or
    Convert, or a worker thread running to its end. *)
Inductive step : App -> list event -> App -> Prop :=
  | step_edit app v :
      step app [] (set_vars v app)
  | step_preview app env :
      step app (_preview_command env app) app
  | step_convert app env :
      step app (_run_conversion env app).1 (_run_conversion env app).2
  | step_worker app t job o :
      threads app !! t = Some job ->
      step app (worker job o) (worker_done t app).

Inductive reachable : App -> Prop :=
  | reachable_init : reachable init
  | reachable_step app tr app' :
      reachable app -> step app tr app' -> reachable app'.

End Program.

(** ** Reading a trace *)

Global Instance widget_state_eq_dec : EqDecision widget_state.
Proof. solve_decision. Defined.

Global Instance event_eq_dec : EqDecision event.
Proof. solve_decision. Defined.

(** How often an event occurs in a trace. *)
Definition occurrences (e : event) (tr : list event) : nat :=
  length (List.filter (fun e' => bool_decide (e' = e)) tr).

(** The log entry that reports the command line in [_run_conversion]. *)
Definition is_command_report (e : event) : bool :=
  match e with
  | Log _ message => String.prefix "Command: " message
  | _ => false
  end.

(** Events by which a thread or a process comes into being. *)
Definition is_spawn (e : event) : bool :=
  match e with
  | ThreadStart _ | Popen _ _ => true
  | _ => false
  end.

(** Attempts to create a process. *)
Definition is_popen (e : event) : bool :=
  match e with Popen _ _ => true | _ => false end.

(** Events that touch the filesystem. *)
Definition is_makedirs (e : event) : bool :=
  match e with Makedirs _ => true | _ => false end.

(** Entries of the log widget. *)
Definition is_log (e : event) : bool :=
  match e with Log _ _ => true | _ => false end.

(** Reports of an error, as a dialog or as a log entry of level ERROR. *)
Definition is_error_report (e : event) : bool :=
  match e with
  | ShowError _ _ => true
  | Log level _ => String.eqb level "ERROR"
  | _ => false
  end.

(** The [k]-th path tried by [_generate_output_path]: the original path
    for [k = 0], then the suffixed ones. *)
Definition candidate (original_path : string) (k : nat) : string :=
  match k with
  | O => original_path
  | S _ => original_path +:+ "_v" +:+ pretty k
  end.

(** The status entry of a worker: a log entry of level SUCCESS or ERROR. *)
Definition is_status (e : event) : bool :=
  match e with
  | Log level _ => String.eqb level "SUCCESS" || String.eqb level "ERROR"
  | _ => false
  end.

(** The calls by which the [finally] block resets the interface. *)
Definition is_restore (e : event) : bool :=
  match e with
  | ProgressStop | ConvertBtn NORMAL | StopBtn DISABLED | SetProcess None => true
  | _ => false
  end.



(** The argument [_build_command] puts after [--hf-path]. *)
Definition effective_source `{Runtime} (source_path : string)
    (source_type : source_type) : string :=
  if source_type_eqb source_type file
     && PyStr.endswith source_path ".safetensors"
  then Path_parent source_path
  else source_path.

(** What [_run_conversion] derives from the form once its checks have
    passed: the stripped source, its type, the output path, the command. *)
Section Submission.
Context `{Runtime}.

Definition submitted_source (app : App) : string :=
  PyStr.strip (source_path (vars app)).

Definition submitted_type (env : Env) (app : App) : source_type :=
  _detect_source_type (fs env) (submitted_source app).

Definition submitted_output (env : Env) (app : App) : string :=
  _generate_output_path (fs env) (vars app) (now env)
    (submitted_source app) (submitted_type env app).

Definition submitted_command (env : Env) (app : App) : list string :=
  _build_command (vars app) (submitted_source app)
    (submitted_output env app) (submitted_type env app).

End Submission.


(** The single slot: no worker thread is alive, or exactly the one that
    [worker_thread] refers to. *)
Definition single_slot (app : App) : Prop :=
  threads app = ∅
  \/ exists t job, worker_thread app = Some t /\ threads app = {[t := job]}.

(** The strings [_build_command] adds when quantization is enabled. *)
Definition quant_flags : list string := ["-q"; "--q-bits"; "--q-group-size"].

(** Two settings of the form that differ at most in [q_bits] and [q_group]. *)
Definition with_quant_values (bits group : string) (v : Vars) : Vars :=
  {| source_path := source_path v;
     output_base := output_base v;
     auto_timestamp := auto_timestamp v;
     enable_quant := enable_quant v;
     q_bits := bits;
     q_group := group;
     dtype := dtype v;
     trust_remote := trust_remote v;
     hf_offline := hf_offline v;
     dry_run := dry_run v |}.

(** ** A sample runtime

    POSIX conventions for the library functions of [Runtime], on plain
    paths; the examples below run the program with it. *)

Module Posix.

(** The components of a path, split at ["/"]. *)
Fixpoint components (s cur : string) : list string :=
  match s with
  | EmptyString => [cur]
  | String c s' =>
      if Ascii.eqb c "/" then cur :: components s' EmptyString
      else components s' (cur +:+ String c EmptyString)
  end.

Definition parts (p : string) : list string :=
  List.filter (fun c => negb (PyStr.is_empty c) && negb (String.eqb c "."))
    (components p EmptyString).

Definition is_absolute (p : string) : bool :=
  match p with String "/" _ => true | _ => false end.

Definition name (p : string) : string := List.last (parts p) EmptyString.

Definition parent (p : string) : string :=
  let ps := List.removelast (parts p) in
  if is_absolute p then "/" +:+ PyStr.join "/" ps
  else match ps with [] => "." | _ => PyStr.join "/" ps end.

(** The part of a name before its last ["."], if it has one. *)
Fixpoint before_last_dot (s : string) : option string :=
  match s with
  | EmptyString => None
  | String c s' =>
      match before_last_dot s' with
      | Some r => Some (String c r)
      | None => if Ascii.eqb c "." then Some EmptyString else None
      end
  end.

Definition stem (p : string) : string :=
  let n := name p in
  match before_last_dot n with
  | Some r =>
      if PyStr.is_empty r || (S (String.length r) =? String.length n)%nat
      then n else r
  | None => n
  end.

Definition join (a b : string) : string :=
  match b with
  | String "/" _ => b
  | _ => if PyStr.is_empty a || PyStr.endswith a "/" then a +:+ b
         else a +:+ "/" +:+ b
  end.

(** Arguments made of letters, digits and [_@%+=:,./-] need no quoting. *)
Definition safe (c : ascii) : bool :=
  let n := nat_of_ascii c in
  (((48 <=? n) && (n <=? 58)) || ((64 <=? n) && (n <=? 90))
   || ((97 <=? n) && (n <=? 122)) || ((43 <=? n) && (n <=? 47))
   || (n =? 95) || (n =? 37) || (n =? 61))%nat.

Fixpoint all_safe (s : string) : bool :=
  match s with
  | EmptyString => true
  | String c s' => safe c && all_safe s'
  end.

Definition apostrophe : string := String "039"%char EmptyString.
Definition double_quote : string := String "034"%char EmptyString.

Fixpoint escape (s : string) : string :=
  match s with
  | EmptyString => EmptyString
  | String c s' =>
      (if Ascii.eqb c "039"
       then apostrophe +:+ double_quote +:+ apostrophe +:+ double_quote
            +:+ apostrophe
       else String c EmptyString) +:+ escape s'
  end.

Definition quote (s : string) : string :=
  if PyStr.is_empty s then apostrophe +:+ apostrophe
  else if all_safe s then s
  else apostrophe +:+ escape s +:+ apostrophe.

Definition runtime : Runtime :=
  {| DEFAULT_OUTPUT_BASE := "/Users/me/MLX_Models";
     sys_executable := "/usr/bin/python3";
     shlex_quote := quote;
     os_path_join := join;
     Path_name := name;
     Path_stem := stem;
     Path_parent := parent |}.

End Posix.

(** ** Sample inputs *)

Module Sample.

Definition vars0 : Vars :=
  {| source_path := "org/model-name";
     output_base := "/out";
     auto_timestamp := false;
     enable_quant := true;
     q_bits := "4";
     q_group := "64";
     dtype := "float16";
     trust_remote := true;
     hf_offline := false;
     dry_run := false |}.

Definition with_source (s : string) (v : Vars) : Vars :=
  {| source_path := s;
     output_base := output_base v;
     auto_timestamp := auto_timestamp v;
     enable_quant := enable_quant v;
     q_bits := q_bits v;
     q_group := q_group v;
     dtype := dtype v;
     trust_remote := trust_remote v;
     hf_offline := hf_offline v;
     dry_run := dry_run v |}.


Definition with_quant (b : bool) (v : Vars) : Vars :=
  {| source_path := source_path v;
     output_base := output_base v;
     auto_timestamp := auto_timestamp v;
     enable_quant := b;
     q_bits := q_bits v;
     q_group := q_group v;
     dtype := dtype v;
     trust_remote := trust_remote v;
     hf_offline := hf_offline v;
     dry_run := dry_run v |}.

(** An idle application whose form holds [v]. *)
Definition idle (v : Vars) : App :=
  {| vars := v;
     current_process := None;
     worker_thread := None;
     threads := ∅;
     next_thread := 0 |}.

Definition env0 : Env :=
  {| fs := ∅; now := "20250101_120000"; environ_ := ∅;
     makedirs_error := None |}.

(** A filesystem on which the first two candidates are taken. *)
Definition fs_taken : filesystem :=
  <["/out/org_model-name" := Directory]>
    (<["/out/org_model-name_v1" := Directory]> ∅).


(** The application after Convert has been pressed once on [idle vars0]. *)
Definition running : App :=
  (@_run_conversion Posix.runtime env0 (idle vars0)).2.


Definition running_nemo : App :=
  set_vars (with_source "/models/parakeet.nemo" vars0) running.


Definition idle_nemo : App :=
  idle (with_source " /models/parakeet.nemo" vars0).

(** Quantization switched off, and the string [-q] entered as the source. *)
Definition vars_plain : Vars := with_quant false vars0.

Definition idle_flag : App := idle (with_source "-q" vars_plain).

(** The job that the worker of [running] runs. *)
Definition job0 : Job :=
  {| job_cmd :=
       @_build_command Posix.runtime vars0 "org/model-name"
         "/out/org_model-name" hf;
     job_env := ∅;
     job_output_path := "/out/org_model-name" |}.

End Sample.

(** ** The widgets between presses *)










(** More of Python's strings. *)
Module PyText.







End PyText.

(** ** Presets *)

(** [PRESET_CONFIGS]: bits, group size and dtype of each preset; the row of
    ["Custom"], which is [(None, None, None)], carries no values. *)
Definition PRESET_CONFIGS : gmap string (option (string * string * string)) :=
  list_to_map
    [ ("Fast & Good (4-bit)", Some ("4", "64", "float16"));
      ("High Quality (8-bit)", Some ("8", "64", "float16"));
      ("Tiny Size (2-bit)", Some ("2", "128", "bfloat16"));
      ("Balanced (6-bit)", Some ("6", "64", "float16"));
      ("Custom", None) ].

(** The values offered by the read-only comboboxes of
    [_build_quant_section]. *)
Definition Q_BITS_VALUES : list string := ["2"; "3"; "4"; "6"; "8"].
Definition Q_GROUP_VALUES : list string := ["32"; "64"; "128"].
Definition DTYPE_VALUES : list string := ["float16"; "bfloat16"; "float32"].

(** What [_on_preset_change] does to the frame of the custom settings. *)
Inductive frame_event :=
  | CustomFramePack          (* self.custom_frame.pack(fill=X, pady=(5, 0)) *)
  | CustomFramePackForget.   (* self.custom_frame.pack_forget() *)

(** The form with other quantization values and dtype. *)
Definition set_quant (bits group dtype_ : string) (v : Vars) : Vars :=
  {| source_path := source_path v;
     output_base := output_base v;
     auto_timestamp := auto_timestamp v;
     enable_quant := enable_quant v;
     q_bits := bits;
     q_group := group;
     dtype := dtype_;
     trust_remote := trust_remote v;
     hf_offline := hf_offline v;
     dry_run := dry_run v |}.

(** [_on_preset_change], with [preset] the value of [self.preset]. *)
Definition _on_preset_change (preset : string) (v : Vars)
    : list frame_event * Vars :=
  if String.eqb preset "Custom" then ([CustomFramePack], v)
  else
    match PRESET_CONFIGS !! preset with
    | Some (Some (bits, group, dtype_)) =>
        if negb (PyStr.is_empty bits)
        then ([CustomFramePackForget], set_quant bits group dtype_ v)
        else ([CustomFramePackForget], v)
    | _ => ([CustomFramePackForget], v)
    end.

(** The quantization values and the dtype are among those the comboboxes
    offer. *)
Definition valid_quant (v : Vars) : Prop :=
  q_bits v ∈ Q_BITS_VALUES /\ q_group v ∈ Q_GROUP_VALUES
  /\ dtype v ∈ DTYPE_VALUES.

(** ** The installation tester ([test_installation.py]) *)

Module Installation.

(** What the script does: lines it prints and commands it runs. *)
Inductive out :=
  | Print (line : string)          (* print(line) *)
  | Run (cmd : list string).       (* subprocess.run(cmd, ..., timeout=5) *)

(** [test_python_version], on [sys.version_info]. *)
Definition test_python_version (major minor micro : Z) : list out * bool :=
  let version :=
    Print ("Python version: " +:+ pretty major +:+ "." +:+ pretty minor
           +:+ "." +:+ pretty micro) in
  if (major <? 3)%Z || ((major =? 3)%Z && (minor <? 8)%Z)
  then ([version; Print "  WARNING: Python 3.8+ recommended"], false)
  else ([version; Print "  OK: Python version compatible"], true).



(** What [subprocess.run] does with a command. *)
Inductive run_outcome :=
  | Completed (returncode : Z)
  | RunRaises.                      (* any Exception, a timeout included *)

(** The [for cmd in commands_to_try] loop of [test_mlx_command]. *)
Fixpoint try_commands (run : list string -> run_outcome)
    (commands : list (list string)) : list out * bool :=
  match commands with
  | [] =>
      ([ Print "mlx_lm command: FAILED";
         Print "  Could not run mlx_lm commands" ], false)
  | cmd :: rest =>
      match run cmd with
      | Completed 0 =>
          ([ Run cmd;
             Print "mlx_lm command: OK";
             Print ("  Using format: " +:+ PyStr.join " " (take 4 cmd)) ],
           true)
      | _ =>
          let '(tr, r) := try_commands run rest in (Run cmd :: tr, r)
      end
  end.

Definition commands_to_try `{Runtime} : list (list string) :=
  [ [sys_executable; "-m"; "mlx_lm"; "--help"];
    [sys_executable; "-m"; "mlx_lm.convert"; "--help"] ].

(** [test_mlx_command] *)
Definition test_mlx_command `{Runtime} (run : list string -> run_outcome)
    : list out * bool :=
  try_commands run commands_to_try.









End Installation.

(** ** Further sample inputs *)

Module Scenario.

(** The sample form with the timestamp on, with offline mode on, and with
    a source of blanks. *)
Definition vars_stamped : Vars :=
  {| source_path := "org/model-name";
     output_base := "/out";
     auto_timestamp := true;
     enable_quant := true;
     q_bits := "4";
     q_group := "64";
     dtype := "float16";
     trust_remote := true;
     hf_offline := false;
     dry_run := false |}.





(** A host with Python 3.7 on which only the old command format works and
    [mlx_lm] cannot be imported. *)
Definition old_format_only (cmd : list string) : Installation.run_outcome :=
  match cmd with
  | [_; _; "mlx_lm.convert"; _] => Installation.Completed 0
  | _ => Installation.RunRaises
  end.


End Scenario.

(** ** Strings *)

Section Strings.
Import PyStr.

Lemma append_cons c s t : String c s +:+ t = String c (s +:+ t).
Proof. reflexivity. Qed.

Lemma append_nil_l t : EmptyString +:+ t = t.
Proof. reflexivity. Qed.

Lemma length_append s1 s2 :
  String.length (s1 +:+ s2) = String.length s1 + String.length s2.
Proof.
  induction s1 as [|c s1 IH]; [done|].
  rewrite append_cons. cbn [String.length]. by rewrite IH.
Qed.

Lemma endswith_refl s : endswith s s = true.
Proof. destruct s; cbn [endswith]; by rewrite String.eqb_refl. Qed.

Lemma endswith_cons c s suffix :
  endswith s suffix = true -> endswith (String c s) suffix = true.
Proof. intros Hs. cbn [endswith]. rewrite Hs. by destruct (String.eqb _ _). Qed.

Lemma endswith_append p suffix : endswith (p +:+ suffix) suffix = true.
Proof.
  induction p as [|c p IH]; [apply endswith_refl|].
  rewrite append_cons. by apply endswith_cons.
Qed.

Lemma endswith_inv s suffix :
  endswith s suffix = true -> exists p, s = p +:+ suffix.
Proof.
  induction s as [|c s IH]; cbn [endswith]; intros Hs.
  - destruct (String.eqb_spec EmptyString suffix) as [Heq|]; [|done].
    subst suffix. by exists EmptyString.
  - destruct (String.eqb_spec (String c s) suffix) as [Heq|].
    + subst suffix. by exists EmptyString.
    + destruct (IH Hs) as [p ->]. by exists (String c p).
Qed.

Lemma rstrip_append p q :
  rstrip q <> EmptyString -> rstrip (p +:+ q) = p +:+ rstrip q.
Proof.
  intros Hq. induction p as [|c p IH]; [done|].
  rewrite !append_cons. cbn [rstrip]. rewrite IH.
  destruct (p +:+ rstrip q) eqn:Hp; [|done].
  destruct p; [|done]. by destruct Hq.
Qed.

Lemma lstrip_append p c q :
  isspace c = false -> exists p', lstrip (p +:+ String c q) = p' +:+ String c q.
Proof.
  intros Hc. induction p as [|d p IH].
  - exists EmptyString. rewrite !append_nil_l. cbn [lstrip]. by rewrite Hc.
  - rewrite append_cons. cbn [lstrip]. destruct (isspace d); [done|].
    by exists (String d p).
Qed.

(** Stripping keeps a [.nemo] suffix, whatever surrounds it. *)
Lemma strip_nemo s :
  endswith s ".nemo" = true ->
  endswith (strip s) ".nemo" = true /\ is_empty (strip s) = false.
Proof.
  intros [p ->]%endswith_inv. unfold strip.
  rewrite rstrip_append by done.
  change (rstrip ".nemo") with ".nemo".
  destruct (lstrip_append p "." "nemo" eq_refl) as [p' ->].
  split; [apply endswith_append|by destruct p'].
Qed.


End Strings.

Section OutputPath.
Context `{Runtime}.
Implicit Types (fs : filesystem) (original : string).

Lemma os_path_exists_true fs p :
  os_path_exists fs p = true <-> p ∈ dom fs.
Proof.
  unfold os_path_exists. rewrite elem_of_dom.
  destruct (fs !! p); split; try done; intros [? ?]; done.
Qed.

Global Instance candidate_inj original : Inj (=) (=) (candidate original).
Proof.
  intros [|i] [|j] Heq; unfold candidate in Heq.
  - done.
  - apply (f_equal String.length) in Heq.
    rewrite !length_append in Heq. cbn [String.length] in Heq. lia.
  - apply (f_equal String.length) in Heq.
    rewrite !length_append in Heq. cbn [String.length] in Heq. lia.
  - apply (inj _) in Heq. apply (inj (String.app "_v")) in Heq.
    by apply (inj pretty) in Heq.
Qed.

(** Below any bound, a boolean predicate holds throughout or has a
    least index at which it fails. *)
Lemma least_false (P : nat -> bool) n :
  (forall i, i < n -> P i = true)
  \/ exists j, j < n /\ P j = false /\ forall i, i < j -> P i = true.
Proof.
  induction n as [|n [IH|(j & ? & ? & ?)]].
  - left. lia.
  - destruct (P n) eqn:Hn.
    + left. intros i Hi. destruct (decide (i = n)) as [->|]; [done|].
      apply IH. lia.
    + right. exists n. split; [lia|]. split; [done|]. intros i Hi. by apply IH.
  - right. exists j. split; [lia|done].
Qed.

(** Pigeonhole: of the first [size fs + 1] candidates one is free. *)
Lemma free_candidate fs original :
  exists j, j <= size fs
    /\ os_path_exists fs (candidate original j) = false
    /\ forall i, i < j -> os_path_exists fs (candidate original i) = true.
Proof.
  destruct (least_false (fun k => os_path_exists fs (candidate original k))
              (S (size fs))) as [Hfull|(j & ? & ? & ?)].
  - exfalso.
    set (l := candidate original <$> seq 0 (S (size fs))).
    assert (NoDup l) as Hnd by (apply (NoDup_fmap_2 _), NoDup_seq).
    assert (list_to_set l ⊆ dom fs) as Hsub.
    { intros p [k [-> Hk%elem_of_seq]]%elem_of_list_to_set%list_elem_of_fmap.
      apply os_path_exists_true, Hfull. lia. }
    apply subseteq_size in Hsub.
    rewrite size_list_to_set, size_dom in Hsub by done.
    unfold l in Hsub. rewrite length_fmap, length_seq in Hsub. lia.
  - exists j. split; [lia|done].
Qed.

(** The loop returns the first free candidate, if the budget reaches it. *)
Lemma ensure_unique_least fs original budget k j :
  k <= j -> j <= k + budget ->
  (forall i, k <= i < j -> os_path_exists fs (candidate original i) = true) ->
  os_path_exists fs (candidate original j) = false ->
  ensure_unique fs original budget (S k) (candidate original k)
  = Some (candidate original j).
Proof.
  revert k. induction budget as [|budget IH]; intros k Hkj Hjb Hbusy Hfree.
  - assert (j = k) as -> by lia. cbn [ensure_unique]. by rewrite Hfree.
  - cbn [ensure_unique].
    destruct (os_path_exists fs (candidate original k)) eqn:Hk.
    + assert (k <> j) by (intros ->; congruence).
      apply (IH (S k)); [lia|lia| |done].
      intros i Hi. apply Hbusy. lia.
    + destruct (decide (k = j)) as [->|Hne]; [done|].
      rewrite Hbusy in Hk by lia. done.
Qed.

(** The budget of [_generate_output_path] is enough on every filesystem. *)
Lemma ensure_unique_finds fs original :
  exists j, j <= size fs
    /\ ensure_unique fs original (size fs) 1 original
       = Some (candidate original j)
    /\ os_path_exists fs (candidate original j) = false
    /\ forall i, i < j -> os_path_exists fs (candidate original i) = true.
Proof.
  destruct (free_candidate fs original) as (j & Hj & Hfree & Hbusy).
  exists j. split; [done|]. split; [|done].
  apply (ensure_unique_least fs original (size fs) 0 j); [lia|lia| |done].
  intros i Hi. apply Hbusy. lia.
Qed.

End OutputPath.

(** ** Output path *)

(** C6. With the timestamp switched off, [_generate_output_path] ends on
    every filesystem and returns the first of the paths [base/name],
    [base/name_v1], [base/name_v2], ... that does not exist: [base/name]
    when it is free, otherwise the suffixed path with the least counter,
    counting from 1, whose path is free.  The returned path never exists. *)
Theorem generate_output_path_unique `{Runtime} (fs : filesystem) v now
    source_path source_type :
  auto_timestamp v = false ->
  let original :=
    os_path_join (output_base v) (base_name source_path source_type) in
  let result := _generate_output_path fs v now source_path source_type in
  ensure_unique fs original (size fs) 1 original = Some result
  /\ os_path_exists fs result = false
  /\ (os_path_exists fs original = false -> result = original)
  /\ (forall k,
        (forall i, i < k -> os_path_exists fs (candidate original i) = true) ->
        os_path_exists fs (candidate original k) = false ->
        result = candidate original k).
Proof.
  intros Hts original result.
  assert (original_path v now source_path source_type = original) as Horig.
  { unfold original_path, model_name. by rewrite Hts. }
  destruct (ensure_unique_finds fs original) as (j & Hj & Hloop & Hfree & Hbusy).
  assert (result = candidate original j) as Hres.
  { unfold result, _generate_output_path. rewrite Horig. cbv zeta.
    by rewrite Hloop. }
  assert (forall k,
    (forall i, i < k -> os_path_exists fs (candidate original i) = true) ->
    os_path_exists fs (candidate original k) = false -> k = j) as Hleast.
  { intros k Hk1 Hk2. destruct (Nat.lt_trichotomy k j) as [Hlt|[->|Hgt]].
    - rewrite Hbusy in Hk2 by done. done.
    - done.
    - rewrite Hk1 in Hfree by done. done. }
  rewrite Hres. split; [done|]. split; [done|]. split.
  - intros H0. by rewrite <- (Hleast 0); [|lia|].
  - intros k Hk1 Hk2. by rewrite (Hleast k).
Qed.

Lemma generate_output_path_unique_witness :
  auto_timestamp Sample.vars0 = false
  /\ @_generate_output_path Posix.runtime Sample.fs_taken Sample.vars0
       "20250101_120000" "org/model-name" hf
     = "/out/org_model-name_v2".
Proof.
  split; [reflexivity|].
  destruct (@generate_output_path_unique Posix.runtime Sample.fs_taken
              Sample.vars0 "20250101_120000" "org/model-name" hf eq_refl)
    as (_ & _ & _ & Hk).
  apply (Hk 2); [|vm_compute; reflexivity].
  intros [|[|i]] Hi; [vm_compute; reflexivity|vm_compute; reflexivity|lia].
Defined.

(** ** Source classification *)






(** ** Command construction *)

Section Command.
Context `{Runtime}.

(** The vector of [_build_command], written out. *)
Lemma build_command_eq v source_path output_path source_type :
  _build_command v source_path output_path source_type
  = [ sys_executable; "-m"; "mlx_lm"; "convert";
      "--hf-path"; effective_source source_path source_type;
      "--mlx-path"; output_path;
      "--dtype"; dtype v ]
    ++ (if enable_quant v
        then ["-q"; "--q-bits"; q_bits v; "--q-group-size"; q_group v]
        else [])
    ++ (if trust_remote v then ["--trust-remote-code"] else []).
Proof.
  unfold _build_command, effective_source.
  by destruct (enable_quant v), (trust_remote v).
Qed.

(** C8. [_build_command] returns, in this order and with nothing else:
    the interpreter, [-m mlx_lm convert], [--hf-path] and the source
    (the parent directory for a [.safetensors] file), [--mlx-path] and
    the output path, [--dtype] and the dtype, then [-q --q-bits <bits>
    --q-group-size <group>] exactly when quantization is enabled, then
    [--trust-remote-code] exactly when remote code is trusted.  The
    vector is a function of the form's variables and the three
    arguments alone: no filesystem, clock or application state enters,
    and no event is produced. *)
Theorem build_command_layout v source_path output_path source_type :
  let quantization :=
    if enable_quant v
    then ["-q"; "--q-bits"; q_bits v; "--q-group-size"; q_group v]
    else [] in
  let trust := if trust_remote v then ["--trust-remote-code"] else [] in
  _build_command v source_path output_path source_type
  = [ sys_executable; "-m"; "mlx_lm"; "convert";
      "--hf-path"; effective_source source_path source_type;
      "--mlx-path"; output_path;
      "--dtype"; dtype v ]
    ++ quantization ++ trust
  /\ length (_build_command v source_path output_path source_type)
     = 10 + length quantization + length trust.
Proof.
  intros quantization trust. rewrite build_command_eq.
  split; [done|]. by rewrite !length_app.
Qed.

(** C10, as the program has it.  With quantization disabled the vector
    does not depend on the bits and group-size settings, and none of
    [-q], [--q-bits], [--q-group-size] is added to it: such a string
    occurs in the vector only where the interpreter path, the source,
    the output path or the dtype is itself that string. *)
Theorem disabled_quant_ignores_bits_and_group v bits group
    source_path output_path source_type :
  enable_quant v = false ->
  _build_command (with_quant_values bits group v)
    source_path output_path source_type
  = _build_command v source_path output_path source_type
  /\ (forall flag,
        flag ∈ quant_flags ->
        flag ∉ [ sys_executable; effective_source source_path source_type;
                 output_path; dtype v ] ->
        flag ∉ _build_command v source_path output_path source_type).
Proof.
  intros Hq. split.
  - rewrite !build_command_eq. cbn. by rewrite Hq.
  - intros flag Hflag Hvalues Hin.
    rewrite build_command_eq, Hq in Hin.
    unfold quant_flags in Hflag.
    rewrite !elem_of_cons, elem_of_nil in Hflag.
    rewrite !not_elem_of_cons in Hvalues.
    destruct Hvalues as (? & ? & ? & ? & _).
    destruct (trust_remote v); cbn in Hin;
      rewrite !elem_of_cons, elem_of_nil in Hin;
      destruct Hflag as [->|[->|[->|[]]]];
      repeat (destruct Hin as [Hin|Hin]; [congruence|]); done.
Qed.

End Command.

Lemma disabled_quant_ignores_bits_and_group_witness :
  enable_quant Sample.vars_plain = false
  /\ @_build_command Posix.runtime
       (with_quant_values "8" "128" Sample.vars_plain)
       "org/model-name" "/out/org_model-name" hf
     = @_build_command Posix.runtime Sample.vars_plain
         "org/model-name" "/out/org_model-name" hf
  /\ "-q" ∉ @_build_command Posix.runtime Sample.vars_plain
              "org/model-name" "/out/org_model-name" hf.
Proof.
  split; [reflexivity|].
  destruct (@disabled_quant_ignores_bits_and_group Posix.runtime
              Sample.vars_plain "8" "128"
              "org/model-name" "/out/org_model-name" hf eq_refl)
    as [Hsame Hnone].
  split; [exact Hsame|].
  apply Hnone; [by left|].
  vm_compute. intros Hin; repeat (apply elem_of_cons in Hin as [Hin|Hin]; [done|]).
  by apply elem_of_nil in Hin.
Defined.

(** A source that is itself the string [-q] is passed through after
    [--hf-path], so the command built for it contains [-q] although
    quantization is disabled. *)
Lemma disabled_quant_source_is_flag :
  enable_quant (vars Sample.idle_flag) = false
  /\ @submitted_command Posix.runtime Sample.env0 Sample.idle_flag
     = @_build_command Posix.runtime (vars Sample.idle_flag) "-q" "/out/-q" hf
  /\ "-q" ∈ @submitted_command Posix.runtime Sample.env0 Sample.idle_flag.
Proof.
  split; [reflexivity|]. split; [vm_compute; reflexivity|].
  apply list_elem_of_In. vm_compute. do 5 right. by left.
Qed.

(** ** Traces *)

Lemma occurrences_app e tr1 tr2 :
  occurrences e (tr1 ++ tr2) = occurrences e tr1 + occurrences e tr2.
Proof. unfold occurrences. by rewrite List.filter_app, length_app. Qed.

Lemma filter_stream_output (f : event -> bool) lines :
  (forall message, f (Log "INFO" message) = false) ->
  List.filter f (stream_output lines) = [].
Proof.
  intros Hf. induction lines as [|line lines IH]; [done|].
  cbn [stream_output map List.filter]. unfold log at 1. by rewrite Hf.
Qed.

Lemma filter_nil_not_elem (f : event -> bool) tr e :
  List.filter f tr = [] -> f e = true -> e ∉ tr.
Proof.
  intros Hnil He Hin%list_elem_of_In.
  assert (In e (List.filter f tr)) as Hf by (apply List.filter_In; done).
  by rewrite Hnil in Hf.
Qed.

Lemma append_inj_r s1 s2 t : s1 +:+ t = s2 +:+ t -> s1 = s2.
Proof.
  revert s2. induction s1 as [|c s1 IH]; intros [|d s2] Heq.
  - done.
  - apply (f_equal String.length) in Heq.
    rewrite append_nil_l, append_cons in Heq. cbn [String.length] in Heq.
    rewrite length_append in Heq. lia.
  - apply (f_equal String.length) in Heq.
    rewrite append_nil_l, append_cons in Heq. cbn [String.length] in Heq.
    rewrite length_append in Heq. lia.
  - rewrite !append_cons in Heq. injection Heq as -> Heq. f_equal. by apply IH.
Qed.

(** Filtering a worker's trace: split it at the appends and drop the
    output lines, which are plain log entries. *)
Ltac filter_trace :=
  repeat (rewrite ?List.filter_app, ?filter_stream_output by done;
          cbn [List.filter is_status is_restore is_log is_popen is_spawn app]).

(** ** The worker *)


(** A run on three lines. *)
Example worker_three_lines :
  worker Sample.job0 (Exits 7 ["loading  "; "converting"; "done "] 0)
  = [ Popen (job_cmd Sample.job0) ∅; SetProcess (Some 7);
      Log "INFO" "loading"; Log "INFO" "converting"; Log "INFO" "done";
      Wait;
      Log "SUCCESS" "SUCCESS: Conversion completed!";
      Log "INFO" "Output saved to: /out/org_model-name";
      ProgressStop; ConvertBtn NORMAL; StopBtn DISABLED; SetProcess None;
      Log "INFO" rule ].
Proof. reflexivity. Qed.

(** C3. When the process has been started and exits, the worker's status
    entry is decided by the exit code alone: the SUCCESS entry exactly when
    the code is 0, and otherwise the ERROR entry that carries the code. *)
Theorem exit_code_decides_status (job : Job) pid lines (return_code : Z) :
  let tr := worker job (Exits pid lines return_code) in
  List.filter is_status tr
  = [ if (return_code =? 0)%Z
      then Log "SUCCESS" "SUCCESS: Conversion completed!"
      else Log "ERROR" ("ERROR: Conversion failed (exit code "
                        +:+ pretty return_code +:+ ")") ]
  /\ (Log "SUCCESS" "SUCCESS: Conversion completed!" ∈ tr
      <-> return_code = 0%Z)
  /\ (forall n : Z,
        Log "ERROR" ("ERROR: Conversion failed (exit code "
                     +:+ pretty n +:+ ")") ∈ tr
        <-> return_code = n /\ n <> 0%Z).
Proof.
  intros tr.
  assert (List.filter is_status tr
          = [ if (return_code =? 0)%Z
              then Log "SUCCESS" "SUCCESS: Conversion completed!"
              else Log "ERROR" ("ERROR: Conversion failed (exit code "
                                +:+ pretty return_code +:+ ")") ]) as Hst.
  { unfold tr, worker, attempt. filter_trace.
    unfold report. by destruct (return_code =? 0)%Z. }
  assert (forall e, is_status e = true ->
            e ∈ tr <-> e ∈ List.filter is_status tr) as Hin.
  { intros e He. rewrite !list_elem_of_In, List.filter_In. tauto. }
  split; [done|]. split.
  - rewrite Hin, Hst by done. rewrite list_elem_of_singleton.
    destruct (Z.eqb_spec return_code 0); split; try done.
  - intros n. rewrite Hin, Hst by done. rewrite list_elem_of_singleton.
    destruct (Z.eqb_spec return_code 0) as [->|Hne]; split.
    + done.
    + by intros [<- ?].
    + intros [= Heq]. apply (inj _) in Heq.
      apply append_inj_r, (inj pretty) in Heq. by subst n.
    + by intros [-> _].
Qed.

(** Exit code 17 is reported as such; so is the code of a process ended
    by a signal. *)
Example exit_code_17 :
  List.filter is_status (worker Sample.job0 (Exits 7 ["oops"] 17))
  = [Log "ERROR" "ERROR: Conversion failed (exit code 17)"]
  /\ List.filter is_status (worker Sample.job0 (Exits 7 [] (-15)))
     = [Log "ERROR" "ERROR: Conversion failed (exit code -15)"].
Proof. split; reflexivity. Qed.

(** ** Pressing Convert *)

(** Case analysis along the [return]s of [_run_conversion]. *)
Ltac run_conversion_cases :=
  unfold _run_conversion; cbv zeta;
  destruct (worker_alive _) eqn:Halive;
    [|destruct (PyStr.is_empty (PyStr.strip _)) eqn:Hempty;
      [|destruct (PyStr.endswith (PyStr.strip _) ".nemo") eqn:Hnemo;
        [|destruct (makedirs_error _) as [?|] eqn:Hmk;
          [|destruct (dry_run _) eqn:Hdry]]]];
  cbn [fst snd].

Section Convert.
Context `{Runtime}.

(** [_preview_command] only logs or warns. *)
Lemma preview_command_quiet env app :
  List.filter is_spawn (_preview_command env app) = []
  /\ List.filter is_popen (_preview_command env app) = []
  /\ List.filter is_makedirs (_preview_command env app) = [].
Proof.
  unfold _preview_command. cbv zeta.
  destruct (PyStr.is_empty _); [done|].
  destruct (PyStr.endswith _ _); done.
Qed.

(** A call of [_run_conversion] leaves the state as it is or starts one
    worker, and the latter only when none is alive. *)
Lemma run_conversion_state env app :
  (_run_conversion env app).2 = app
  \/ (worker_alive app = false
      /\ exists job, (_run_conversion env app).2 = start_worker job app).
Proof. run_conversion_cases; eauto. Qed.

Lemma worker_alive_start job app : worker_alive (start_worker job app) = true.
Proof.
  unfold worker_alive, start_worker. cbn.
  apply bool_decide_eq_true. rewrite lookup_insert_eq. eauto.
Qed.

Lemma worker_alive_done t app :
  worker_thread app = Some t -> worker_alive (worker_done t app) = false.
Proof.
  intros Ht. unfold worker_alive, worker_done. cbn. rewrite Ht.
  apply bool_decide_eq_false. rewrite lookup_delete_eq. by intros [? ?].
Qed.

Lemma single_slot_step app tr app' :
  single_slot app -> step app tr app' -> single_slot app'.
Proof.
  intros Hslot Hstep. destruct Hstep as [app v|app env|app env|app t job o Ht].
  - done.
  - done.
  - destruct (run_conversion_state env app) as [->|(Halive & job & ->)];
      [done|].
    right. exists (next_thread app), job. split; [done|].
    destruct Hslot as [Hnone|(t & job' & Hwt & Hthreads)].
    + unfold start_worker. cbn. by rewrite Hnone, insert_empty.
    + unfold worker_alive in Halive. rewrite Hwt, Hthreads in Halive.
      rewrite lookup_singleton_eq in Halive.
      apply bool_decide_eq_false in Halive. destruct Halive. eauto.
  - left. destruct Hslot as [Hnone|(t' & job' & Hwt & Hthreads)].
    + by rewrite Hnone in Ht.
    + unfold worker_done. cbn. rewrite Hthreads in Ht |- *.
      apply lookup_singleton_Some in Ht as [-> _].
      apply delete_singleton_eq.
Qed.

Lemma reachable_single_slot app : reachable app -> single_slot app.
Proof.
  induction 1 as [|app tr app' _ IH Hstep]; [by left|].
  by apply (single_slot_step app tr app').
Qed.

(** C2. At every reachable state at most one worker thread is alive, and
    while one is alive a press of Convert does nothing but show the
    "Already Running" warning: on any filesystem it computes no path,
    creates no directory, starts no thread or process, and leaves the
    application state, the running worker included, as it was. *)
Theorem already_running_rejected app :
  reachable app ->
  size (threads app) <= 1
  /\ (worker_alive app = true ->
      forall env,
        _run_conversion env app
        = ([ShowWarning "Already Running"
              "A conversion is already in progress."], app)).
Proof.
  intros Hreach. split.
  - destruct (reachable_single_slot app Hreach)
      as [->|(t & job & _ & ->)].
    + rewrite map_size_empty. lia.
    + by rewrite map_size_singleton.
  - intros Halive env. unfold _run_conversion. by rewrite Halive.
Qed.

(** C4, as the program has it.  [_run_conversion] never creates the
    process itself: it starts the worker thread, which occupies the slot
    from the moment the call returns, and the process is created inside
    the worker.  When that fails, the worker reports the failure as one
    ERROR log entry carrying the exception text, logs no output line,
    and then runs the [finally] block once; the slot is free once the
    worker has finished. *)
Theorem spawn_failure_reported_by_worker env app job e :
  let r := _run_conversion env app in
  List.filter is_popen r.1 = []
  /\ (forall t, ThreadStart t ∈ r.1 ->
        worker_thread r.2 = Some t /\ worker_alive r.2 = true)
  /\ worker job (PopenRaises e)
     = [ Popen (job_cmd job) (job_env job);
         Log "ERROR" ("ERROR: " +:+ e);
         ProgressStop; ConvertBtn NORMAL; StopBtn DISABLED; SetProcess None;
         Log "INFO" rule ]
  /\ (forall t, worker_thread r.2 = Some t ->
        worker_alive (worker_done t r.2) = false).
Proof.
  intros r. split_and!.
  - subst r. destruct (preview_command_quiet env app) as (_ & Hq & _).
    run_conversion_cases; done.
  - intros t Hin. subst r.
    destruct (preview_command_quiet env app) as (Hq & _ & _).
    revert Hin. run_conversion_cases; intros Hin.
    1-5: exfalso; revert Hin; apply filter_nil_not_elem with (f := is_spawn);
         [|done]; cbn [List.filter is_spawn Datatypes.app]; by rewrite ?Hq.
    split; [|apply worker_alive_start].
    cbn [Datatypes.app] in Hin. rewrite !elem_of_cons, elem_of_nil in Hin.
    repeat (destruct Hin as [Hin|Hin]; [try discriminate Hin|]);
      [by injection Hin as ->|done].
  - done.
  - intros t Ht. by apply worker_alive_done.
Qed.



(** C9, as the program has it.  A source that ends in [.nemo] is refused
    by the call itself: the application state, the slot included, stays as
    it was; no thread or process is started, no directory is made and no
    command line is logged; [_preview_command] logs the manual-conversion
    instructions instead of a command.  When no worker is alive, the
    refusal is the "NeMo Files" dialog followed by those instructions;
    while one is alive, it is the "Already Running" warning. *)
Theorem nemo_source_refused env app :
  PyStr.endswith (source_path (vars app)) ".nemo" = true ->
  let r := _run_conversion env app in
  r.2 = app
  /\ List.filter is_spawn r.1 = []
  /\ List.filter is_makedirs r.1 = []
  /\ List.filter is_command_report r.1 = []
  /\ _preview_command env app = nemo_instructions
  /\ (worker_alive app = false ->
      r.1 = ShowInfo "NeMo Files"
              ("NeMo files must be converted to HuggingFace format first."
               +:+ newline +:+ "See the log for instructions.")
            :: nemo_instructions)
  /\ (worker_alive app = true ->
      r.1 = [ShowWarning "Already Running"
               "A conversion is already in progress."]).
Proof.
  intros [Hnemo Hempty]%strip_nemo r. subst r.
  assert (_preview_command env app = nemo_instructions) as Hpreview.
  { unfold _preview_command. cbv zeta. by rewrite Hempty, Hnemo. }
  unfold _run_conversion. cbv zeta. rewrite Hempty, Hnemo, Hpreview.
  destruct (worker_alive app); by split_and!.
Qed.

End Convert.

Lemma already_running_rejected_witness :
  @reachable Posix.runtime Sample.running
  /\ worker_alive Sample.running = true
  /\ size (threads Sample.running) <= 1
  /\ @_run_conversion Posix.runtime Sample.env0 Sample.running
     = ([ShowWarning "Already Running" "A conversion is already in progress."],
        Sample.running).
Proof.
  assert (@reachable Posix.runtime Sample.running) as Hreach.
  { refine (@reachable_step Posix.runtime (Sample.idle Sample.vars0) _ _ _
              (@step_convert Posix.runtime (Sample.idle Sample.vars0)
                 Sample.env0)).
    exact (@reachable_step Posix.runtime init _ _ reachable_init
             (@step_edit Posix.runtime init Sample.vars0)). }
  destruct (@already_running_rejected Posix.runtime Sample.running Hreach)
    as [Hsize Hreject].
  split; [exact Hreach|]. split; [reflexivity|]. split; [exact Hsize|].
  apply Hreject. reflexivity.
Defined.

Lemma spawn_failure_reported_by_worker_witness :
  ThreadStart 0
    ∈ (@_run_conversion Posix.runtime Sample.env0 (Sample.idle Sample.vars0)).1
  /\ worker_alive Sample.running = true
  /\ worker_alive (worker_done 0 Sample.running) = false.
Proof.
  destruct (@spawn_failure_reported_by_worker Posix.runtime Sample.env0
              (Sample.idle Sample.vars0) Sample.job0 "[Errno 13] Permission denied")
    as (_ & Hstart & _ & Hdone).
  assert (ThreadStart 0
    ∈ (@_run_conversion Posix.runtime Sample.env0 (Sample.idle Sample.vars0)).1)
    as Hin.
  { apply list_elem_of_In. vm_compute. do 7 right. by left. }
  split; [exact Hin|]. split.
  - exact (proj2 (Hstart 0 Hin)).
  - apply Hdone. reflexivity.
Defined.

(** Process creation fails after [_run_conversion] has returned: the call
    reports no error and leaves a live worker in the slot; the worker then
    logs the error and runs its [finally] block. *)
Lemma spawn_failure_not_synchronous :
  List.filter is_error_report
    (@_run_conversion Posix.runtime Sample.env0 (Sample.idle Sample.vars0)).1
  = []
  /\ worker_alive Sample.running = true
  /\ threads Sample.running !! 0 = Some Sample.job0
  /\ worker Sample.job0 (PopenRaises "[Errno 13] Permission denied")
     = [ Popen (job_cmd Sample.job0) ∅;
         Log "ERROR" "ERROR: [Errno 13] Permission denied";
         ProgressStop; ConvertBtn NORMAL; StopBtn DISABLED; SetProcess None;
         Log "INFO" rule ].
Proof. repeat split; vm_compute; reflexivity. Qed.



Lemma nemo_source_refused_witness :
  PyStr.endswith (source_path (vars Sample.idle_nemo)) ".nemo" = true
  /\ worker_alive Sample.idle_nemo = false
  /\ (@_run_conversion Posix.runtime Sample.env0 Sample.idle_nemo).1
     = ShowInfo "NeMo Files"
         ("NeMo files must be converted to HuggingFace format first."
          +:+ newline +:+ "See the log for instructions.")
       :: nemo_instructions.
Proof.
  split; [reflexivity|]. split; [reflexivity|].
  destruct (@nemo_source_refused Posix.runtime Sample.env0 Sample.idle_nemo
              eq_refl) as (_ & _ & _ & _ & _ & Hsignal & _).
  apply Hsignal. reflexivity.
Defined.

(** With a [.nemo] source entered while a worker is alive, the press is
    turned away with the "Already Running" warning: the "NeMo Files"
    dialog is not shown and the instructions are not logged. *)
Lemma nemo_source_while_running :
  PyStr.endswith (source_path (vars Sample.running_nemo)) ".nemo" = true
  /\ (@_run_conversion Posix.runtime Sample.env0 Sample.running_nemo).1
     = [ShowWarning "Already Running" "A conversion is already in progress."].
Proof. split; vm_compute; reflexivity. Qed.

(** ** Further properties: sources and output paths *)

Section Sources.
Context `{Runtime}.


(** The path [_generate_output_path] returns is the first free candidate. *)
Lemma generate_output_path_least (fs : filesystem) v now source_path source_type :
  let original := original_path v now source_path source_type in
  exists j, j <= size fs
    /\ _generate_output_path fs v now source_path source_type
       = candidate original j
    /\ os_path_exists fs (candidate original j) = false
    /\ forall i, i < j -> os_path_exists fs (candidate original i) = true.
Proof.
  intros original.
  destruct (ensure_unique_finds fs original) as (j & Hj & Hloop & Hfree & Hbusy).
  exists j. split_and!; try done.
  unfold _generate_output_path. fold original. cbv zeta. by rewrite Hloop.
Qed.

(** X2. In every setting, with or without the timestamp,
    [_generate_output_path] returns a path that does not exist, and once
    that path has been created a further call with the same settings and
    clock moves on: it returns the candidate with a larger counter, which
    again does not exist. *)
Theorem generate_output_path_advances (fs : filesystem) v now
    source_path source_type (created : node) :
  let original := original_path v now source_path source_type in
  let first := _generate_output_path fs v now source_path source_type in
  let second :=
    _generate_output_path (<[first := created]> fs) v now
      source_path source_type in
  os_path_exists fs first = false
  /\ os_path_exists (<[first := created]> fs) second = false
  /\ second <> first
  /\ exists k k',
       k < k' /\ first = candidate original k
       /\ second = candidate original k'.
Proof.
  intros original first second.
  destruct (generate_output_path_least fs v now source_path source_type)
    as (k & _ & Hk & Hfree & Hbusy).
  destruct (generate_output_path_least (<[first := created]> fs) v now
              source_path source_type) as (k' & _ & Hk' & Hfree' & Hbusy').
  fold original in Hk, Hk', Hfree, Hfree', Hbusy, Hbusy'.
  fold first in Hk. fold second in Hk'.
  assert (os_path_exists (<[first := created]> fs) first = true) as Hnow.
  { unfold os_path_exists. by rewrite lookup_insert_eq. }
  assert (forall p, os_path_exists fs p = true ->
            os_path_exists (<[first := created]> fs) p = true) as Hmono.
  { intros p. unfold os_path_exists.
    destruct (decide (first = p)) as [->|Hne].
    - by rewrite lookup_insert_eq.
    - by rewrite lookup_insert_ne. }
  assert (k < k') as Hlt.
  { destruct (Nat.lt_trichotomy k k') as [Hlt|[Heq|Hgt]]; [done|exfalso..].
    - subst k'. rewrite <- Hk in Hfree'. congruence.
    - specialize (Hbusy k' Hgt). apply Hmono in Hbusy. congruence. }
  split_and!.
  - by rewrite Hk.
  - by rewrite Hk'.
  - intros Heq. rewrite <- Hk', Heq in Hfree'. congruence.
  - by exists k, k'.
Qed.

Lemma contains_append c s1 s2 :
  PyStr.contains c (s1 +:+ s2) = PyStr.contains c s1 || PyStr.contains c s2.
Proof.
  induction s1 as [|d s1 IH]; [done|].
  rewrite append_cons. cbn [PyStr.contains]. rewrite IH. by rewrite orb_assoc.
Qed.

Lemma contains_replace s : PyStr.contains "/" (PyStr.replace "/" "_" s) = false.
Proof.
  induction s as [|c s IH]; [done|]. cbn [PyStr.replace PyStr.contains].
  rewrite IH, orb_false_r.
  destruct (Ascii.eqb_spec c "/") as [->|Hne]; [done|].
  by apply Ascii.eqb_neq.
Qed.

(** X3. The model name taken from a remote identifier contains no path
    separator, with the timestamp added as well as without. *)
Theorem remote_name_has_no_separator v now source_path :
  PyStr.contains "/" (base_name source_path hf) = false
  /\ (PyStr.contains "/" now = false ->
      PyStr.contains "/" (model_name v now source_path hf) = false).
Proof.
  split; [apply contains_replace|].
  intros Hnow. unfold model_name. cbn [base_name].
  destruct (auto_timestamp v); [|apply contains_replace].
  by rewrite !contains_append, contains_replace, Hnow.
Qed.


End Sources.

(** ** Further properties: presses of Preview and Convert *)









Section Presses.
Context `{Runtime}.





End Presses.

(** ** Further properties: the widgets *)




Section Widgets.
Context `{Runtime}.





End Widgets.

(** ** Further properties: presets *)

(** X10. Choosing a preset keeps the quantization settings among the
    values the comboboxes offer, changes nothing but bits, group size and
    dtype, changes nothing at all for "Custom" or a name that is no
    preset, and is idempotent. *)
Theorem preset_change_keeps_valid (preset : string) (v : Vars) :
  let v' := (_on_preset_change preset v).2 in
  (valid_quant v -> valid_quant v')
  /\ set_quant (q_bits v') (q_group v') (dtype v') v = v'
  /\ (preset = "Custom" \/ PRESET_CONFIGS !! preset = None -> v' = v)
  /\ _on_preset_change preset v' = _on_preset_change preset v.
Proof.
  intros v'. subst v'. unfold _on_preset_change.
  destruct (String.eqb_spec preset "Custom") as [->|Hcustom].
  { cbn [snd]. split_and!; try done. by destruct v. }
  destruct (PRESET_CONFIGS !! preset) as [[[[bits group] dtype_]|]|] eqn:Hrow;
    cbn [snd].
  - apply elem_of_list_to_map_2 in Hrow.
    rewrite !elem_of_cons, elem_of_nil in Hrow.
    destruct Hrow as [Hrow|[Hrow|[Hrow|[Hrow|[Hrow|[]]]]]];
      try discriminate Hrow; injection Hrow as -> -> -> ->;
      cbn [negb PyStr.is_empty snd].
    all: split_and!; [|done|by intros [?|?]|done].
    all: intros _; unfold valid_quant, Q_BITS_VALUES, Q_GROUP_VALUES,
      DTYPE_VALUES; cbn; rewrite !elem_of_cons;
      split_and!; repeat first [left; reflexivity | right].
  - split_and!; try done. by destruct v.
  - split_and!; try done. by destruct v.
Qed.

(** ** Further properties: the installation tester *)

Section Tester.
Import Installation.
Context `{Runtime}.

(** X12. [test_python_version] passes exactly from Python 3.8 on: a major
    version above 3, or major version 3 with a minor version of at least
    8; the micro version plays no part. *)
Theorem python_version_threshold (major minor micro : Z) :
  (test_python_version major minor micro).2 = true
  <-> (3 < major \/ (major = 3 /\ 8 <= minor))%Z.
Proof.
  unfold test_python_version.
  destruct (Z.ltb_spec major 3), (Z.eqb_spec major 3), (Z.ltb_spec minor 8);
    cbn; split; try done; lia.
Qed.

(** The loop succeeds exactly when one of the commands ends with code 0. *)
Lemma try_commands_spec run_ (commands : list (list string)) :
  (try_commands run_ commands).2 = true
  <-> exists cmd, cmd ∈ commands /\ run_ cmd = Completed 0.
Proof.
  induction commands as [|cmd rest IH].
  - split; [done|]. by intros (? & ?%elem_of_nil & _).
  - cbn [try_commands].
    destruct (run_ cmd) as [[|code|code]|] eqn:Hrun.
    1: { cbn [snd]. split; [|done]. intros _. exists cmd. split; [left|done]. }
    all: destruct (try_commands run_ rest) as [tr r]; cbn [snd] in IH |- *;
      rewrite IH; split;
      [ intros (c & Hc & Hc0); exists c; split; [by right|done]
      | intros (c & Hc & Hc0); apply elem_of_cons in Hc as [->|Hc];
        [congruence|by exists c] ].
Qed.

(** X13. [test_mlx_command] passes exactly when one of the two command
    formats ends with code 0.  When the new format does, the old format is
    not run and the new one is reported; otherwise, when the old format
    does, it is reported; an exception or a non-zero code of one format
    only moves on to the next. *)
Theorem mlx_command_first_success (run_ : list string -> run_outcome) :
  let new := [sys_executable; "-m"; "mlx_lm"; "--help"] in
  let old := [sys_executable; "-m"; "mlx_lm.convert"; "--help"] in
  ((test_mlx_command run_).2 = true
   <-> run_ new = Completed 0 \/ run_ old = Completed 0)
  /\ (run_ new = Completed 0 ->
      (test_mlx_command run_).1
      = [ Run new; Print "mlx_lm command: OK";
          Print ("  Using format: " +:+ PyStr.join " " new) ])
  /\ (run_ new <> Completed 0 -> run_ old = Completed 0 ->
      (test_mlx_command run_).1
      = [ Run new; Run old; Print "mlx_lm command: OK";
          Print ("  Using format: " +:+ PyStr.join " " old) ])
  /\ (run_ new <> Completed 0 -> run_ old <> Completed 0 ->
      test_mlx_command run_
      = ([ Run new; Run old; Print "mlx_lm command: FAILED";
           Print "  Could not run mlx_lm commands" ], false)).
Proof.
  intros new old. unfold test_mlx_command, commands_to_try. fold new old.
  cbn [try_commands].
  destruct (run_ new) as [[|code|code]|] eqn:Hnew;
    destruct (run_ old) as [[|code'|code']|] eqn:Hold;
    cbn [fst snd]; split_and!; try done; try (intros; congruence);
    intuition congruence.
Qed.



End Tester.

Lemma remote_name_has_no_separator_witness :
  PyStr.contains "/" "20250101_120000" = false
  /\ PyStr.contains "/"
       (@model_name Posix.runtime Scenario.vars_stamped "20250101_120000"
          "org/model-name" hf) = false.
Proof.
  split; [reflexivity|].
  apply (@remote_name_has_no_separator Posix.runtime Scenario.vars_stamped
           "20250101_120000" "org/model-name").
  reflexivity.
Defined.






Lemma preset_change_keeps_valid_witness :
  valid_quant Sample.vars0
  /\ valid_quant (_on_preset_change "Tiny Size (2-bit)" Sample.vars0).2
  /\ q_bits (_on_preset_change "Tiny Size (2-bit)" Sample.vars0).2 = "2".
Proof.
  assert (valid_quant Sample.vars0) as Hvalid.
  { unfold valid_quant. split_and!; apply list_elem_of_In; vm_compute; tauto. }
  split; [exact Hvalid|]. split; [|reflexivity].
  exact (proj1 (preset_change_keeps_valid "Tiny Size (2-bit)" Sample.vars0)
           Hvalid).
Defined.


Lemma mlx_command_first_success_witness :
  (@Installation.test_mlx_command Posix.runtime Scenario.old_format_only).1
  = [ Installation.Run ["/usr/bin/python3"; "-m"; "mlx_lm"; "--help"];
      Installation.Run ["/usr/bin/python3"; "-m"; "mlx_lm.convert"; "--help"];
      Installation.Print "mlx_lm command: OK";
      Installation.Print
        "  Using format: /usr/bin/python3 -m mlx_lm.convert --help" ].
Proof.
  destruct (@mlx_command_first_success Posix.runtime Scenario.old_format_only)
    as (_ & _ & Hold & _).
  apply Hold; [discriminate|reflexivity].
Defined.


Section DryRun.
Context `{Runtime}.


End DryRun.

